(** * IBC Tendermint light client: header validity and state update

  A shallow embedding of [x/ibc/07-tendermint/update.go]:
  [CheckValidityAndUpdateState], [checkValidity] and [update], together
  with the properties of the client update that the specification states.

  The Go code relies on declarations that live in other files and
  packages (the structs of this package, the error registry, the
  Tendermint light-client verifier).  They are either modelled after the
  data model of the specification or taken as parameters of the section
  [Tendermint]; every theorem then holds for each choice of them. *)

From Stdlib Require Import ZArith Ascii String List Bool Lia DecimalString.
From Stdlib Require Import Relations.Relation_Operators.
Import ListNotations.

Local Open Scope string_scope.
Local Open Scope Z_scope.

(** ** Go values *)

Definition bytes : Type := list Byte.byte.

(** [time.Time] as an instant and [time.Duration] as a signed length, both
  counted in nanoseconds. *)
Definition Time : Type := Z.
Definition Duration : Type := Z.

(** A value of a Go interface type, seen from a package that declares the
  concrete type [T]: the nil interface, a value whose dynamic type is [T],
  or a value of some other dynamic type (only its type name is kept). *)
Inductive Interface (T : Type) : Type :=
| Nil
| Concrete (v : T)
| OtherType (typeName : string).

Arguments Nil {T}.
Arguments Concrete {T} v.
Arguments OtherType {T} typeName.

(** The comma-ok type assertion [v, ok := x.(T)]. *)
Definition type_assert {T : Type} (x : Interface T) : option T :=
match x with
| Concrete v => Some v
| Nil | OtherType _ => None
end.

(** ** Reading the surroundings

    A Go function can read state that is not among its arguments; in this
    program, the wall clock.  [IO World A] is a computation that gives an
    [A] and may read the world it runs in; applied to a world, it gives its
    result there. *)

Definition IO (World A : Type) : Type := World -> A.

Definition ret {World A : Type} (a : A) : IO World A := fun _ => a.

Definition bind {World A B : Type}
    (m : IO World A) (k : A -> IO World B) : IO World B :=
  fun w => k (m w) w.

Notation "x <- m ;; k" := (bind m (fun x => k))
  (at level 61, m at next level, right associativity).

(** ** Errors ([types/errors]) *)

Module sdkerrors.

(** An error value: an error registered under a codespace and a code, an
    error made by a dependency ([errors.New], [fmt.Errorf]), or an error
    wrapped with a description.  Stack traces are left out. *)
Inductive Error : Type :=
| Registered (codespace : string) (code : N) (description : string)
| Plain (text : string)
| Wrapped (parent : Error) (msg : string).

(** The [%d] verb on an integer. *)
Definition fmt_d (n : Z) : string := NilZero.string_of_int (Z.to_int n).

(** [fmt.Sprintf] for formats whose only verb is [%d]. *)
Fixpoint Sprintf (format : string) (args : list Z) : string :=
  match format with
  | EmptyString => EmptyString
  | String c rest =>
      match c, rest with
      | "%"%char, String "d"%char rest' =>
          match args with
          | a :: args' => (fmt_d a ++ Sprintf rest' args')%string
          | [] => ("%!d(MISSING)" ++ Sprintf rest' [])%string
          end
      | _, _ => String c (Sprintf rest args)
      end
  end.

(** [Wrap] extends a non-nil error with a description. *)
Definition Wrap (err : Error) (description : string) : Error :=
  Wrapped err description.

(** [Wrapf] formats the description first. *)
Definition Wrapf (err : Error) (format : string) (args : list Z) : Error :=
  Wrap err (Sprintf format args).

(** The error at the bottom of a chain of wraps.  It is what [errors.Is]
    compares against a registered error and what fixes the codespace and
    code reported to a client. *)
Fixpoint rootCause (err : Error) : Error :=
  match err with
  | Wrapped parent _ => rootCause parent
  | _ => err
  end.

End sdkerrors.

Import sdkerrors.

(** A Go [error]: [None] is nil. *)
Definition error : Type := option Error.

(** ** The light client *)

Section Tendermint.

(** Types of the Tendermint packages, opaque to this module. *)
Context {tmtypes_SignedHeader tmtypes_ValidatorSet : Type}.
Context {commitment_Root tmmath_Fraction : Type}.

(** The surroundings of a call: what it can observe beyond its arguments. *)
Context {World : Type}.

(** Modelled from the spec: the struct [ClientState] is declared outside
    [update.go]; the data model gives it the latest accepted height. *)
Record ClientState : Type := {
  LatestHeight : Z
}.

(** Modelled from the spec: the struct [Header] is declared outside
    [update.go]; the data model gives it a height, the signed block
    header, the validator set that signed it, the next validator set and
    the application hash. *)
Record Header : Type := {
  Height : Z;
  SignedHeader : tmtypes_SignedHeader;
  ValidatorSet : tmtypes_ValidatorSet;
  NextValidatorSet : tmtypes_ValidatorSet;
  AppHash : bytes
}.

(** Modelled from the spec: the struct [ConsensusState] is declared
    outside [update.go]; the data model gives it the commitment root and
    the hash of the validator set. *)
Record ConsensusState : Type := {
  Root : commitment_Root;
  ValidatorSetHash : bytes
}.

(** [time.Now()]: the reading of the wall clock. *)
Variable time_Now : IO World Time.

(** [clienttypes.ErrInvalidClientType] and [clienttypes.ErrInvalidHeader]. *)
Variables ErrInvalidClientType ErrInvalidHeader : Error.

(** The accessor [Header.GetHeight], declared outside [update.go]. *)
Variable GetHeight : Header -> Z.

(** [Header.ValidateBasic], declared outside [update.go]. *)
Variable ValidateBasic : Header -> string -> error.

(** [lite.Verify] and [lite.DefaultTrustLevel] of the Tendermint light
    client. *)
Variable lite_Verify :
  string -> tmtypes_SignedHeader -> tmtypes_ValidatorSet ->
  tmtypes_SignedHeader -> tmtypes_ValidatorSet ->
  Duration -> Time -> tmmath_Fraction -> error.
Variable lite_DefaultTrustLevel : tmmath_Fraction.

(** [commitment.NewRoot] and [ValidatorSet.Hash]. *)
Variable commitment_NewRoot : bytes -> commitment_Root.
Variable Hash : tmtypes_ValidatorSet -> bytes.

(** [checkValidity] checks if the Tendermint header is valid. *)
Definition checkValidity
    (clientState : ClientState)
    (oldHeader newHeader : Header)
    (oldHeaderNextVals : tmtypes_ValidatorSet)
    (chainID : string)
    (trustingPeriod : Duration)
    : IO World error :=
  if Height newHeader <=? Height oldHeader then
    ret (Some (Wrapf ErrInvalidHeader
                 "new header height ≤ old header height (%d <= %d)"
                 [Height newHeader; Height oldHeader]))
  else if GetHeight newHeader <? LatestHeight clientState then
    ret (Some (Wrapf ErrInvalidHeader
                 "header height < latest client state height (%d < %d)"
                 [Height newHeader; LatestHeight clientState]))
  else
    match ValidateBasic newHeader chainID with
    | Some err => ret (Some err)
    | None =>
        now <- time_Now ;;
        ret (lite_Verify chainID (SignedHeader oldHeader) oldHeaderNextVals
               (SignedHeader newHeader) (ValidatorSet newHeader)
               trustingPeriod now lite_DefaultTrustLevel)
    end.

(** [update] the consensus state from a new header.  The client state is
    the function's own copy; its one field is assigned. *)
Definition update (clientState : ClientState) (header : Header)
    : ClientState * ConsensusState :=
  let clientState := {| LatestHeight := GetHeight header |} in
  let consensusState :=
    {| Root := commitment_NewRoot (AppHash header);
       ValidatorSetHash := Hash (ValidatorSet header) |} in
  (clientState, consensusState).

(** [CheckValidityAndUpdateState] checks if the provided header is valid
    and updates the consensus state if appropriate. *)
Definition CheckValidityAndUpdateState
    (clientState : Interface ClientState)
    (oldHeader newHeader : Interface Header)
    (oldHeaderNextVals : tmtypes_ValidatorSet)
    (chainID : string)
    (trustingPeriod : Duration)
    : IO World (Interface ClientState * Interface ConsensusState * error) :=
  match type_assert clientState with
  | None =>
      ret (Nil, Nil,
           Some (Wrap ErrInvalidClientType
                   "light client is not from Tendermint"))
  | Some tmClientState =>
      match type_assert oldHeader with
      | None =>
          ret (Nil, Nil,
               Some (Wrap ErrInvalidHeader "header is not from Tendermint"))
      | Some tmHeader1 =>
          match type_assert newHeader with
          | None =>
              ret (Nil, Nil,
                   Some (Wrap ErrInvalidHeader "header is not from Tendermint"))
          | Some tmHeader2 =>
              err <- checkValidity tmClientState tmHeader1 tmHeader2
                       oldHeaderNextVals chainID trustingPeriod ;;
              match err with
              | Some err => ret (Nil, Nil, Some err)
              | None =>
                  let '(tmClientState, consensusState) :=
                    update tmClientState tmHeader2 in
                  ret (Concrete tmClientState, Concrete consensusState, None)
              end
          end
      end
  end.

(** One successful update as the caller sees it: the client state [cs]
    it holds goes in, the call, made in some world [w], reports no error,
    and the client state [cs'] that came back replaces [cs]. *)
Inductive accepted (cs cs' : ClientState) : Prop :=
| accepted_intro
    (oldHeader newHeader : Interface Header)
    (oldHeaderNextVals : tmtypes_ValidatorSet)
    (chainID : string) (trustingPeriod : Duration) (w : World)
    (consensusState : ConsensusState) :
    CheckValidityAndUpdateState (Concrete cs) oldHeader newHeader
      oldHeaderNextVals chainID trustingPeriod w
    = (Concrete cs', Concrete consensusState, None) ->
    accepted cs cs'.

(** Any number of successful updates, one after the other. *)
Definition accepted_seq : ClientState -> ClientState -> Prop :=
  clos_refl_trans_1n ClientState accepted.

End Tendermint.

(** ** A concrete chain

  Stand-ins for the Tendermint dependencies, small enough to evaluate:
  a signed header records its chain, its time, the hash of its validator
  set and who signed it; the verifier follows the contract the light
  client expects of it (trusting period, validator-set hash, voting
  power above the trust level). *)

Module Scenario.

Record TestSignedHeader : Type := {
  ChainID : string;
  BlockTime : Time;
  ValidatorsHash : bytes;
  Signers : list string
}.

(** Validators by name, with their voting power. *)
Definition TestValidatorSet : Type := list (string * Z).

Definition TestFraction : Type := (Z * Z)%type.

Definition testHash (vals : TestValidatorSet) : bytes :=
  list_byte_of_string (String.concat "," (map fst vals)).

Definition testNewRoot (hash : bytes) : bytes := hash.

Definition totalPower (vals : TestValidatorSet) : Z :=
  fold_right (fun v acc => snd v + acc) 0 vals.

Definition signedPower (vals : TestValidatorSet) (signers : list string) : Z :=
  fold_right
    (fun v acc => if existsb (String.eqb (fst v)) signers then snd v + acc else acc)
    0 vals.

Definition bytes_eqb (a b : bytes) : bool :=
  String.eqb (string_of_list_byte a) (string_of_list_byte b).

Definition testVerify
    (chainID : string)
    (trusted : TestSignedHeader) (trustedNextVals : TestValidatorSet)
    (untrusted : TestSignedHeader) (untrustedVals : TestValidatorSet)
    (trustingPeriod : Duration) (now : Time) (trustLevel : TestFraction)
    : error :=
  if trustingPeriod <? now - BlockTime trusted then
    Some (Plain "old header has expired")
  else if negb (bytes_eqb (ValidatorsHash untrusted) (testHash untrustedVals)) then
    Some (Plain "validator set does not match the header")
  else if signedPower trustedNextVals (Signers untrusted) * snd trustLevel
          <=? totalPower trustedNextVals * fst trustLevel then
    Some (Plain "not enough voting power signed the header")
  else None.

(** A verifier that serves one trust level only, one third. *)
Definition testVerifyOneThird
    (chainID : string)
    (trusted : TestSignedHeader) (trustedNextVals : TestValidatorSet)
    (untrusted : TestSignedHeader) (untrustedVals : TestValidatorSet)
    (trustingPeriod : Duration) (now : Time) (trustLevel : TestFraction)
    : error :=
  if (fst trustLevel =? 1) && (snd trustLevel =? 3) then
    testVerify chainID trusted trustedNextVals untrusted untrustedVals
      trustingPeriod now trustLevel
  else Some (Plain "trust level not served").

(** A verifier that accepts nothing. *)
Definition testVerifyNever
    (chainID : string)
    (trusted : TestSignedHeader) (trustedNextVals : TestValidatorSet)
    (untrusted : TestSignedHeader) (untrustedVals : TestValidatorSet)
    (trustingPeriod : Duration) (now : Time) (trustLevel : TestFraction)
    : error :=
  Some (Plain "verification is switched off").

Definition testValidateBasic
    (h : @Header TestSignedHeader TestValidatorSet) (chainID : string) : error :=
  if String.eqb (ChainID (SignedHeader h)) chainID then None
  else Some (Plain "header belongs to another chain").

(** A validation that also refuses every header below height 101. *)
Definition testValidateBasicFrom101
    (h : @Header TestSignedHeader TestValidatorSet) (chainID : string) : error :=
  if Height h <? 101 then Some (Plain "header is too old")
  else testValidateBasic h chainID.

Definition testTrustLevel : TestFraction := (1, 3).

Definition errInvalidClientType : Error :=
  Registered "client" 7 "light client type is invalid".
Definition errInvalidHeader : Error :=
  Registered "client" 9 "invalid header".

(** The world is the reading of its clock. *)
Definition testNow : IO Time Time := fun w => w.

Definition check :=
  checkValidity testNow errInvalidHeader Height
    testValidateBasic testVerify testTrustLevel.

Definition run :=
  CheckValidityAndUpdateState testNow errInvalidClientType errInvalidHeader
    Height testValidateBasic testVerify testTrustLevel testNewRoot testHash.

Definition vals : TestValidatorSet := [("alice", 10); ("bob", 10); ("carol", 10)].

Definition headerAt (height : Z) (time : Time) (signers : list string)
    : @Header TestSignedHeader TestValidatorSet :=
  {| Height := height;
     SignedHeader := {| ChainID := "testchain"; BlockTime := time;
                        ValidatorsHash := testHash vals; Signers := signers |};
     ValidatorSet := vals;
     NextValidatorSet := vals;
     AppHash := list_byte_of_string "app" |}.

Definition everyone : list string := ["alice"; "bob"; "carol"].

Definition h100 := headerAt 100 1000 everyone.
Definition h101 := headerAt 101 1010 everyone.
Definition h105 := headerAt 105 1050 everyone.
Definition h120 := headerAt 120 1200 everyone.
Definition h130 := headerAt 130 1300 everyone.

Definition clientAt (height : Z) : ClientState := {| LatestHeight := height |}.

(** Header 100 again, with other validator sets and application hash
    around the same signed header. *)
Definition h100_repacked : @Header TestSignedHeader TestValidatorSet :=
  {| Height := 100;
     SignedHeader := SignedHeader h100;
     ValidatorSet := [("mallory", 1)];
     NextValidatorSet := [];
     AppHash := list_byte_of_string "other" |}.

End Scenario.

(** ** Properties of the update *)

Section Properties.

Context {tmtypes_SignedHeader tmtypes_ValidatorSet : Type}.
Context {commitment_Root tmmath_Fraction World : Type}.

Local Abbreviation Header := (@Header tmtypes_SignedHeader tmtypes_ValidatorSet).
Local Abbreviation ConsensusState := (@ConsensusState commitment_Root).

Variable time_Now : IO World Time.
Variables ErrInvalidClientType ErrInvalidHeader : Error.
Variable GetHeight : Header -> Z.
Variable ValidateBasic : Header -> string -> error.
Variable lite_Verify lite_Verify' :
  string -> tmtypes_SignedHeader -> tmtypes_ValidatorSet ->
  tmtypes_SignedHeader -> tmtypes_ValidatorSet ->
  Duration -> Time -> tmmath_Fraction -> error.
Variable lite_DefaultTrustLevel : tmmath_Fraction.
Variable commitment_NewRoot : bytes -> commitment_Root.
Variable Hash : tmtypes_ValidatorSet -> bytes.

Local Abbreviation check :=
  (checkValidity time_Now ErrInvalidHeader GetHeight ValidateBasic
    lite_Verify lite_DefaultTrustLevel).
Local Abbreviation upd := (update GetHeight commitment_NewRoot Hash).
Local Abbreviation run :=
  (CheckValidityAndUpdateState time_Now ErrInvalidClientType ErrInvalidHeader
    GetHeight ValidateBasic lite_Verify lite_DefaultTrustLevel
    commitment_NewRoot Hash).
Local Abbreviation run' :=
  (CheckValidityAndUpdateState time_Now ErrInvalidClientType ErrInvalidHeader
    GetHeight ValidateBasic lite_Verify' lite_DefaultTrustLevel
    commitment_NewRoot Hash).

(** The errors the module builds itself. *)
Local Abbreviation errClientType :=
  (Wrap ErrInvalidClientType "light client is not from Tendermint").
Local Abbreviation errHeaderType :=
  (Wrap ErrInvalidHeader "header is not from Tendermint").
Local Abbreviation errHeightOrder new old :=
  (Wrapf ErrInvalidHeader
    "new header height ≤ old header height (%d <= %d)" [new; old]).
Local Abbreviation errHeightLatest new latest :=
  (Wrapf ErrInvalidHeader
    "header height < latest client state height (%d < %d)" [new; latest]).

(** *** The checker, case by case *)

Lemma check_height_order cs old new vals chainID tp w :
  Height new <= Height old ->
  check cs old new vals chainID tp w
  = Some (errHeightOrder (Height new) (Height old)).
Proof.
  intros Hle. unfold check, checkValidity.
  apply Z.leb_le in Hle. rewrite Hle. reflexivity.
Qed.

Lemma check_height_latest cs old new vals chainID tp w :
  Height old < Height new ->
  GetHeight new < LatestHeight cs ->
  check cs old new vals chainID tp w
  = Some (errHeightLatest (Height new) (LatestHeight cs)).
Proof.
  intros Hgt Hlt. unfold check, checkValidity.
  apply Z.leb_gt in Hgt. apply Z.ltb_lt in Hlt.
  rewrite Hgt, Hlt. reflexivity.
Qed.

Lemma check_heights_pass cs old new vals chainID tp w :
  Height old < Height new ->
  LatestHeight cs <= GetHeight new ->
  check cs old new vals chainID tp w
  = match ValidateBasic new chainID with
    | Some err => Some err
    | None =>
        lite_Verify chainID (SignedHeader old) vals (SignedHeader new)
          (ValidatorSet new) tp (time_Now w) lite_DefaultTrustLevel
    end.
Proof.
  intros Hgt Hge. unfold check, checkValidity.
  apply Z.leb_gt in Hgt. apply Z.ltb_ge in Hge.
  rewrite Hgt, Hge.
  destruct (ValidateBasic new chainID); reflexivity.
Qed.

(** A header the checker lets through is at or above the client's height. *)
Lemma check_passes_height cs old new vals chainID tp w :
  check cs old new vals chainID tp w = None ->
  Height old < Height new /\ LatestHeight cs <= GetHeight new.
Proof.
  unfold check, checkValidity.
  destruct (Height new <=? Height old) eqn:Hord; [discriminate|].
  destruct (GetHeight new <? LatestHeight cs) eqn:Hlat; [discriminate|].
  intros _. split.
  - now apply Z.leb_gt.
  - now apply Z.ltb_ge.
Qed.

(** *** The orchestrator on inputs of the Tendermint types *)

Lemma run_concrete cs old new vals chainID tp w :
  run (Concrete cs) (Concrete old) (Concrete new) vals chainID tp w
  = match check cs old new vals chainID tp w with
    | Some err => (Nil, Nil, Some err)
    | None => (Concrete (fst (upd cs new)), Concrete (snd (upd cs new)), None)
    end.
Proof.
  unfold CheckValidityAndUpdateState, bind; simpl.
  destruct (check cs old new vals chainID tp w); reflexivity.
Qed.

(** Every outcome is either an error alone or two states and no error. *)
Lemma run_shape ics iold inew vals chainID tp w :
  (exists err, run ics iold inew vals chainID tp w = (Nil, Nil, Some err))
  \/ (exists cs' k,
         run ics iold inew vals chainID tp w = (Concrete cs', Concrete k, None)).
Proof.
  unfold CheckValidityAndUpdateState.
  destruct (type_assert ics) as [cs|]; [|left; eexists; reflexivity].
  destruct (type_assert iold) as [old|]; [|left; eexists; reflexivity].
  destruct (type_assert inew) as [new|]; [|left; eexists; reflexivity].
  unfold bind.
  destruct (check cs old new vals chainID tp w) as [err|].
  - left; eexists; reflexivity.
  - right. eexists _, _. reflexivity.
Qed.

(** A successful call had Tendermint inputs that passed the checker. *)
Lemma run_success_inv ics iold inew vals chainID tp w cs' k :
  run ics iold inew vals chainID tp w = (Concrete cs', Concrete k, None) ->
  exists cs old new,
    ics = Concrete cs /\ iold = Concrete old /\ inew = Concrete new
    /\ check cs old new vals chainID tp w = None
    /\ (cs', k) = upd cs new.
Proof.
  destruct ics as [|cs|?]; try discriminate.
  destruct iold as [|old|?]; try discriminate.
  destruct inew as [|new|?]; try discriminate.
  rewrite run_concrete.
  destruct (check cs old new vals chainID tp w) as [err|] eqn:Hc;
    [discriminate|].
  intros H. injection H as <- <-.
  exists cs, old, new. repeat split; auto.
Qed.

(** One accepted update does not lower the client's height. *)
Lemma accepted_height_le cs cs' :
  accepted time_Now ErrInvalidClientType ErrInvalidHeader GetHeight
    ValidateBasic lite_Verify lite_DefaultTrustLevel commitment_NewRoot Hash
    cs cs' ->
  LatestHeight cs <= LatestHeight cs'.
Proof.
  intros [iold inew vals chainID tp w k Hrun].
  apply run_success_inv in Hrun.
  destruct Hrun as (cs0 & old & new & Hcs & _ & _ & Hcheck & Hupd).
  injection Hcs as <-.
  apply check_passes_height in Hcheck. destruct Hcheck as [_ Hge].
  unfold update in Hupd. injection Hupd as -> _. exact Hge.
Qed.

(** The descriptions of the four errors built in [update.go] differ. *)
Lemma own_errors_differ (a b c d : Z) :
  errClientType <> errHeaderType
  /\ errClientType <> errHeightOrder a b
  /\ errClientType <> errHeightLatest c d
  /\ errHeaderType <> errHeightOrder a b
  /\ errHeaderType <> errHeightLatest c d
  /\ errHeightOrder a b <> errHeightLatest c d.
Proof.
  unfold Wrapf, Wrap; cbn [Sprintf].
  repeat split; intros H; injection H; intros; discriminate.
Qed.

(** *** The claims *)

(** C1. A Tendermint client state and two Tendermint headers with
    [new.height > old.height] and [new.height >= clientState.latestHeight],
    where the new header passes its own validation and the light-client
    verifier accepts it: [CheckValidityAndUpdateState] reports no error and
    returns a client state whose latest height is the height of the new
    header, and a consensus state whose root is made from the application
    hash of the new header and whose validator-set hash is the hash of its
    validator set. *)
Theorem valid_header_is_accepted cs old new vals chainID tp w :
  Height old < Height new ->
  LatestHeight cs <= GetHeight new ->
  ValidateBasic new chainID = None ->
  lite_Verify chainID (SignedHeader old) vals (SignedHeader new)
    (ValidatorSet new) tp (time_Now w) lite_DefaultTrustLevel = None ->
  exists cs' k,
    run (Concrete cs) (Concrete old) (Concrete new) vals chainID tp w
    = (Concrete cs', Concrete k, None)
    /\ LatestHeight cs' = GetHeight new
    /\ Root k = commitment_NewRoot (AppHash new)
    /\ ValidatorSetHash k = Hash (ValidatorSet new).
Proof.
  intros Hord Hlat Hbasic Hverify.
  rewrite run_concrete, (check_heights_pass _ _ _ _ _ _ _ Hord Hlat).
  rewrite Hbasic, Hverify.
  eexists _, _. repeat split.
Qed.

(** C2. Along every sequence of successful updates the latest height of the
    client state never goes down: the client state after the sequence has a
    latest height at least that of the client state before it. *)
Theorem latest_height_never_decreases cs cs' :
  accepted_seq time_Now ErrInvalidClientType ErrInvalidHeader GetHeight
    ValidateBasic lite_Verify lite_DefaultTrustLevel commitment_NewRoot Hash
    cs cs' ->
  LatestHeight cs <= LatestHeight cs'.
Proof.
  induction 1 as [cs | cs mid cs' Hstep _ IH].
  - apply Z.le_refl.
  - apply accepted_height_le in Hstep. lia.
Qed.

(** C3. Whenever [new.height <= old.height] the checker fails with the error
    for a height that does not increase, and [CheckValidityAndUpdateState]
    returns that error with neither a client state nor a consensus state. *)
Theorem non_increasing_height_is_rejected cs old new vals chainID tp w :
  Height new <= Height old ->
  check cs old new vals chainID tp w
  = Some (errHeightOrder (Height new) (Height old))
  /\ run (Concrete cs) (Concrete old) (Concrete new) vals chainID tp w
     = (Nil, Nil, Some (errHeightOrder (Height new) (Height old))).
Proof.
  intros Hle. rewrite run_concrete.
  rewrite (check_height_order cs old new vals chainID tp w Hle). auto.
Qed.

(** C4, amended. For a new header above the old one ([new.height >
    old.height]): if its height is below the latest height of the client
    state the checker fails with the error for a height below the latest
    trusted one; if its height equals the latest height this check passes,
    and the outcome is that of the header's own validation followed by the
    light-client verification. *)
Theorem height_below_latest_is_rejected cs old new vals chainID tp w :
  Height old < Height new ->
  (GetHeight new < LatestHeight cs ->
   check cs old new vals chainID tp w
   = Some (errHeightLatest (Height new) (LatestHeight cs)))
  /\ (GetHeight new = LatestHeight cs ->
      check cs old new vals chainID tp w
      = match ValidateBasic new chainID with
        | Some err => Some err
        | None =>
            lite_Verify chainID (SignedHeader old) vals (SignedHeader new)
              (ValidatorSet new) tp (time_Now w) lite_DefaultTrustLevel
        end).
Proof.
  intros Hord. split; intros Hlat.
  - now apply check_height_latest.
  - apply check_heights_pass; lia.
Qed.

(** C5. Every call of [CheckValidityAndUpdateState] ends in one of two ways:
    with an error and neither state, or with no error and both states.  An
    error of the checker is returned as the checker made it; the other
    errors are the two type errors.  On success the two states are those of
    [update] on the client state and the new header that came in. *)
Theorem error_or_both_states ics iold inew vals chainID tp w :
  match run ics iold inew vals chainID tp w with
  | (Nil, Nil, Some err) =>
      match type_assert ics, type_assert iold, type_assert inew with
      | None, _, _ => err = errClientType
      | Some cs, Some old, Some new =>
          check cs old new vals chainID tp w = Some err
      | Some _, _, _ => err = errHeaderType
      end
  | (Concrete cs', Concrete k, None) =>
      exists cs old new,
        ics = Concrete cs /\ iold = Concrete old /\ inew = Concrete new
        /\ check cs old new vals chainID tp w = None
        /\ (cs', k) = upd cs new
  | _ => False
  end.
Proof.
  destruct (run ics iold inew vals chainID tp w) as [[rcs rk] rerr] eqn:Hrun.
  destruct (run_shape ics iold inew vals chainID tp w)
    as [[err Hshape] | (cs' & k & Hshape)];
    rewrite Hshape in Hrun; injection Hrun as <- <- <-.
  - revert Hshape. unfold CheckValidityAndUpdateState.
    destruct (type_assert ics) as [cs|]; [|now intros [= <-]].
    destruct (type_assert iold) as [old|]; [|now intros [= <-]].
    destruct (type_assert inew) as [new|]; [|now intros [= <-]].
    unfold bind.
    destruct (check cs old new vals chainID tp w) as [err'|].
    + now intros [= <-].
    + discriminate.
  - now apply run_success_inv.
Qed.

(** C6, amended. [CheckValidityAndUpdateState] takes no time among its
    arguments: [checkValidity] reads the wall clock itself.  Two calls with
    the same arguments, made in worlds whose clocks read the same, have the
    same outcome. *)
Theorem same_clock_same_outcome ics iold inew vals chainID tp w1 w2 :
  time_Now w1 = time_Now w2 ->
  run ics iold inew vals chainID tp w1 = run ics iold inew vals chainID tp w2.
Proof.
  intros Hnow. unfold CheckValidityAndUpdateState.
  destruct (type_assert ics) as [cs|]; [|reflexivity].
  destruct (type_assert iold) as [old|]; [|reflexivity].
  destruct (type_assert inew) as [new|]; [|reflexivity].
  assert (Hcheck : check cs old new vals chainID tp w1
                   = check cs old new vals chainID tp w2).
  { unfold checkValidity.
    destruct (Height new <=? Height old); [reflexivity|].
    destruct (GetHeight new <? LatestHeight cs); [reflexivity|].
    destruct (ValidateBasic new chainID); [reflexivity|].
    unfold bind, ret. rewrite Hnow. reflexivity. }
  unfold bind. rewrite Hcheck.
  destruct (check cs old new vals chainID tp w2); reflexivity.
Qed.

(** C7, amended. The errors for a foreign client state, a foreign header, a
    height that does not increase and a height below the latest trusted one
    are four different values, told apart by their descriptions.  The last
    three wrap the same registered error, [ErrInvalidHeader]; the first
    wraps [ErrInvalidClientType].  Once the heights pass, the error of the
    header's own validation and the error of the light-client verifier are
    returned as these produced them. *)
Theorem rejections_differ_by_description
    (ics : Interface ClientState) (ih : Interface Header)
    cs old new cs2 old2 new2 vals chainID tp w :
  type_assert ics = None ->
  type_assert ih = None ->
  Height new <= Height old ->
  Height old2 < Height new2 ->
  GetHeight new2 < LatestHeight cs2 ->
  (exists eA eB eC eD,
    run ics (Concrete old) (Concrete new) vals chainID tp w
    = (Nil, Nil, Some eA)
    /\ run (Concrete cs) ih (Concrete new) vals chainID tp w
       = (Nil, Nil, Some eB)
    /\ run (Concrete cs) (Concrete old) (Concrete new) vals chainID tp w
       = (Nil, Nil, Some eC)
    /\ run (Concrete cs2) (Concrete old2) (Concrete new2) vals chainID tp w
       = (Nil, Nil, Some eD)
    /\ (eA <> eB /\ eA <> eC /\ eA <> eD /\ eB <> eC /\ eB <> eD /\ eC <> eD)
    /\ rootCause eA = rootCause ErrInvalidClientType
    /\ rootCause eB = rootCause ErrInvalidHeader
    /\ rootCause eC = rootCause ErrInvalidHeader
    /\ rootCause eD = rootCause ErrInvalidHeader)
  /\ (forall cs3 old3 new3,
        Height old3 < Height new3 ->
        LatestHeight cs3 <= GetHeight new3 ->
        check cs3 old3 new3 vals chainID tp w
        = match ValidateBasic new3 chainID with
          | Some err => Some err
          | None =>
              lite_Verify chainID (SignedHeader old3) vals (SignedHeader new3)
                (ValidatorSet new3) tp (time_Now w) lite_DefaultTrustLevel
          end).
Proof.
  intros HA HB HC HD1 HD2. split.
  - exists errClientType, errHeaderType,
      (errHeightOrder (Height new) (Height old)),
      (errHeightLatest (Height new2) (LatestHeight cs2)).
    split; [unfold CheckValidityAndUpdateState; now rewrite HA|].
    split; [unfold CheckValidityAndUpdateState; simpl; now rewrite HB|].
    split; [rewrite run_concrete; now rewrite check_height_order|].
    split; [rewrite run_concrete; now rewrite check_height_latest|].
    split; [apply own_errors_differ|].
    repeat split.
  - intros. now apply check_heights_pass.
Qed.

(** C8, amended. A client state that is not of the Tendermint type is
    rejected with the client-type error; with a Tendermint client state, an
    old or a new header that is not of the Tendermint type is rejected with
    the header-type error.  Neither outcome depends on the heights, on the
    header's validation or on the verifier: none of them has been consulted. *)
Theorem foreign_types_are_rejected_first
    (ics : Interface ClientState) cs (iold inew : Interface Header)
    vals chainID tp w :
  (type_assert ics = None ->
   run ics iold inew vals chainID tp w = (Nil, Nil, Some errClientType))
  /\ (type_assert iold = None \/ type_assert inew = None ->
      run (Concrete cs) iold inew vals chainID tp w
      = (Nil, Nil, Some errHeaderType)).
Proof.
  unfold CheckValidityAndUpdateState. split.
  - intros ->. reflexivity.
  - simpl. intros [-> | ->]; [reflexivity|].
    destruct (type_assert iold); reflexivity.
Qed.

(** C9. [update] has no error path and depends on nothing but its
    arguments: it always returns a client state at the height of the header
    and the consensus state made from the header.  The consensus state is
    the same whatever the client state was, and running [update] again on
    its own result with the same header changes nothing.  Whenever the
    checker passes, the orchestrator returns exactly the result of [update]
    with no error. *)
Theorem update_is_total_and_repeatable cs cs' h old vals chainID tp w :
  upd cs h
  = ({| LatestHeight := GetHeight h |},
     {| Root := commitment_NewRoot (AppHash h);
        ValidatorSetHash := Hash (ValidatorSet h) |})
  /\ snd (upd cs h) = snd (upd cs' h)
  /\ upd (fst (upd cs h)) h = upd cs h
  /\ match check cs old h vals chainID tp w with
     | None =>
         run (Concrete cs) (Concrete old) (Concrete h) vals chainID tp w
         = (Concrete (fst (upd cs h)), Concrete (snd (upd cs h)), None)
     | Some _ => True
     end.
Proof.
  repeat split.
  rewrite run_concrete.
  destruct (check cs old h vals chainID tp w); auto.
Qed.

(** C10. The outcome of [CheckValidityAndUpdateState] depends on the
    verifier only through what it answers at the default trust level: two
    verifiers that agree there give the same outcome on all arguments.  No
    argument of the call reaches the trust level of the verifier. *)
Theorem verifier_runs_at_default_trust_level ics iold inew vals chainID tp w :
  (forall c sh v sh' v' p now,
     lite_Verify c sh v sh' v' p now lite_DefaultTrustLevel
     = lite_Verify' c sh v sh' v' p now lite_DefaultTrustLevel) ->
  run ics iold inew vals chainID tp w = run' ics iold inew vals chainID tp w.
Proof.
  intros Hagree. unfold CheckValidityAndUpdateState.
  destruct (type_assert ics) as [cs|]; [|reflexivity].
  destruct (type_assert iold) as [old|]; [|reflexivity].
  destruct (type_assert inew) as [new|]; [|reflexivity].
  unfold bind, checkValidity.
  destruct (Height new <=? Height old); [reflexivity|].
  destruct (GetHeight new <? LatestHeight cs); [reflexivity|].
  destruct (ValidateBasic new chainID); [reflexivity|].
  unfold bind, ret. rewrite Hagree. reflexivity.
Qed.

(** *** Further properties of the three functions *)

Variable ValidateBasic' : Header -> string -> error.

(** The checker passes exactly when all four checks do. *)
Lemma check_none_iff cs old new vals chainID tp w :
  check cs old new vals chainID tp w = None
  <-> Height old < Height new
      /\ LatestHeight cs <= GetHeight new
      /\ ValidateBasic new chainID = None
      /\ lite_Verify chainID (SignedHeader old) vals (SignedHeader new)
           (ValidatorSet new) tp (time_Now w) lite_DefaultTrustLevel = None.
Proof.
  split.
  - intros Hcheck.
    destruct (check_passes_height _ _ _ _ _ _ _ Hcheck) as [Hord Hlat].
    rewrite (check_heights_pass _ _ _ _ _ _ _ Hord Hlat) in Hcheck.
    destruct (ValidateBasic new chainID); [discriminate|]. auto.
  - intros (Hord & Hlat & Hbasic & Hverify).
    rewrite (check_heights_pass _ _ _ _ _ _ _ Hord Hlat), Hbasic.
    exact Hverify.
Qed.

(** X1. A call that reports no error had a Tendermint client state and
    Tendermint headers, a new header above the old one and not below the
    client's height, a new header that passed its own validation, and a
    verifier that accepted it at the default trust level and at the time
    the clock showed; the states returned are made from the new header. *)
Theorem accepted_header_passed_every_check
    ics iold inew vals chainID tp w cs' k :
  run ics iold inew vals chainID tp w = (Concrete cs', Concrete k, None) ->
  exists cs old new,
    ics = Concrete cs /\ iold = Concrete old /\ inew = Concrete new
    /\ Height old < Height new
    /\ LatestHeight cs <= GetHeight new
    /\ ValidateBasic new chainID = None
    /\ lite_Verify chainID (SignedHeader old) vals (SignedHeader new)
         (ValidatorSet new) tp (time_Now w) lite_DefaultTrustLevel = None
    /\ LatestHeight cs' = GetHeight new
    /\ Root k = commitment_NewRoot (AppHash new)
    /\ ValidatorSetHash k = Hash (ValidatorSet new).
Proof.
  intros Hrun. apply run_success_inv in Hrun.
  destruct Hrun as (cs & old & new & Hcs & Hold & Hnew & Hcheck & Hupd).
  apply check_none_iff in Hcheck.
  destruct Hcheck as (Hord & Hlat & Hbasic & Hverify).
  unfold update in Hupd. injection Hupd as -> ->.
  exists cs, old, new. repeat split; assumption.
Qed.

(** X2. A header rejected for its height or by its own validation is
    rejected without the verifier and without the clock: the checker answers
    the same with any other verifier and in any other world. *)
Theorem early_rejection_needs_no_verifier
    cs old new vals chainID tp (w w' : World) :
  Height new <= Height old
  \/ GetHeight new < LatestHeight cs
  \/ ValidateBasic new chainID <> None ->
  check cs old new vals chainID tp w
  = checkValidity time_Now ErrInvalidHeader GetHeight ValidateBasic
      lite_Verify' lite_DefaultTrustLevel cs old new vals chainID tp w'.
Proof.
  intros Hearly. unfold checkValidity.
  destruct (Height new <=? Height old) eqn:Hord; [reflexivity|].
  destruct (GetHeight new <? LatestHeight cs) eqn:Hlat; [reflexivity|].
  destruct (ValidateBasic new chainID) as [err|]; [reflexivity|].
  apply Z.leb_gt in Hord. apply Z.ltb_ge in Hlat.
  destruct Hearly as [H | [H | H]]; [lia | lia | now elim H].
Qed.

(** X3. The validation is asked about the new header and the given chain
    only, the verifier about one tuple of arguments only: a validation and
    a verifier that answer alike there give the same outcome, however they
    differ elsewhere.  The old header is never validated. *)
Theorem dependencies_are_consulted_once cs old new vals chainID tp w :
  ValidateBasic new chainID = ValidateBasic' new chainID ->
  lite_Verify chainID (SignedHeader old) vals (SignedHeader new)
    (ValidatorSet new) tp (time_Now w) lite_DefaultTrustLevel
  = lite_Verify' chainID (SignedHeader old) vals (SignedHeader new)
      (ValidatorSet new) tp (time_Now w) lite_DefaultTrustLevel ->
  run (Concrete cs) (Concrete old) (Concrete new) vals chainID tp w
  = CheckValidityAndUpdateState time_Now ErrInvalidClientType ErrInvalidHeader
      GetHeight ValidateBasic' lite_Verify' lite_DefaultTrustLevel
      commitment_NewRoot Hash
      (Concrete cs) (Concrete old) (Concrete new) vals chainID tp w.
Proof.
  intros Hbasic Hverify.
  unfold CheckValidityAndUpdateState, bind, checkValidity; simpl.
  destruct (Height new <=? Height old); [reflexivity|].
  destruct (GetHeight new <? LatestHeight cs); [reflexivity|].
  rewrite <- Hbasic.
  destruct (ValidateBasic new chainID); [reflexivity|].
  unfold bind, ret. rewrite Hverify. reflexivity.
Qed.

(** X4. An update accepted for one client state is accepted, with the same
    two states as result, for every client state whose height is not above
    the height reached.  That includes the client state just returned:
    replaying an accepted update is accepted again and changes nothing. *)
Theorem accepted_for_lower_clients_alike
    ics iold inew vals chainID tp w cs' k cs2 :
  run ics iold inew vals chainID tp w = (Concrete cs', Concrete k, None) ->
  LatestHeight cs2 <= LatestHeight cs' ->
  run (Concrete cs2) iold inew vals chainID tp w
  = (Concrete cs', Concrete k, None).
Proof.
  intros Hrun Hle. apply run_success_inv in Hrun.
  destruct Hrun as (cs & old & new & _ & -> & -> & Hcheck & Hupd).
  apply check_none_iff in Hcheck.
  destruct Hcheck as (Hord & _ & Hbasic & Hverify).
  unfold update in Hupd. injection Hupd as -> ->. simpl in Hle.
  rewrite run_concrete.
  replace (check cs2 old new vals chainID tp w) with (@None Error);
    [reflexivity|].
  symmetry. apply check_none_iff. auto.
Qed.

(** X5. Once a header has been accepted, every header below it is rejected
    by the client state that came back, with an error that wraps
    [ErrInvalidHeader], whatever the old header, the validator set, the
    chain, the trusting period and the clock of the later call are. *)
Theorem header_below_accepted_one_is_rejected
    ics iold new vals chainID tp w cs' k
    old2 h vals2 chainID2 tp2 w2 :
  run ics iold (Concrete new) vals chainID tp w
  = (Concrete cs', Concrete k, None) ->
  GetHeight h < GetHeight new ->
  exists e,
    run (Concrete cs') (Concrete old2) (Concrete h) vals2 chainID2 tp2 w2
    = (Nil, Nil, Some e)
    /\ rootCause e = rootCause ErrInvalidHeader.
Proof.
  intros Hrun Hlt. apply run_success_inv in Hrun.
  destruct Hrun as (cs & old & new0 & _ & _ & Hnew & _ & Hupd).
  injection Hnew as <-.
  unfold update in Hupd. injection Hupd as -> _.
  rewrite run_concrete.
  destruct (Z.le_gt_cases (Height h) (Height old2)) as [Hle | Hgt].
  - rewrite (check_height_order _ old2 h vals2 chainID2 tp2 w2 Hle).
    eexists. split; reflexivity.
  - rewrite (check_height_latest _ old2 h vals2 chainID2 tp2 w2 Hgt);
      [|exact Hlt].
    eexists. split; reflexivity.
Qed.

(** X6. Every error of [CheckValidityAndUpdateState] has one of six
    sources, in this order: a client state of a foreign type; a header of a
    foreign type; a new header not above the old one; a new header below
    the client's height; the new header's own validation; the verifier. *)
Theorem every_error_has_a_source
    ics iold inew vals chainID tp w rcs rk e :
  run ics iold inew vals chainID tp w = (rcs, rk, Some e) ->
  (type_assert ics = None /\ e = errClientType)
  \/ (type_assert ics <> None
      /\ (type_assert iold = None \/ type_assert inew = None)
      /\ e = errHeaderType)
  \/ exists cs old new,
       ics = Concrete cs /\ iold = Concrete old /\ inew = Concrete new
       /\ ((Height new <= Height old
            /\ e = errHeightOrder (Height new) (Height old))
           \/ (Height old < Height new
               /\ GetHeight new < LatestHeight cs
               /\ e = errHeightLatest (Height new) (LatestHeight cs))
           \/ (Height old < Height new
               /\ LatestHeight cs <= GetHeight new
               /\ ValidateBasic new chainID = Some e)
           \/ (Height old < Height new
               /\ LatestHeight cs <= GetHeight new
               /\ ValidateBasic new chainID = None
               /\ lite_Verify chainID (SignedHeader old) vals
                    (SignedHeader new) (ValidatorSet new) tp (time_Now w)
                    lite_DefaultTrustLevel = Some e)).
Proof.
  destruct ics as [|cs|tcs];
    [intros [= _ _ <-]; left; split; reflexivity | |
     intros [= _ _ <-]; left; split; reflexivity].
  destruct iold as [|old|told];
    [intros [= _ _ <-]; right; left; repeat split; auto; discriminate | |
     intros [= _ _ <-]; right; left; repeat split; auto; discriminate].
  destruct inew as [|new|tnew];
    [intros [= _ _ <-]; right; left; repeat split; auto; discriminate | |
     intros [= _ _ <-]; right; left; repeat split; auto; discriminate].
  rewrite run_concrete. intros Hrun.
  right; right. exists cs, old, new. repeat split.
  destruct (Z.le_gt_cases (Height new) (Height old)) as [Hle | Hgt].
  { rewrite (check_height_order cs old new vals chainID tp w Hle) in Hrun.
    injection Hrun as _ _ <-. left. auto. }
  destruct (Z.lt_ge_cases (GetHeight new) (LatestHeight cs)) as [Hlt | Hge].
  { rewrite (check_height_latest cs old new vals chainID tp w Hgt Hlt) in Hrun.
    injection Hrun as _ _ <-. right; left. auto. }
  rewrite (check_heights_pass cs old new vals chainID tp w Hgt Hge) in Hrun.
  destruct (ValidateBasic new chainID) as [err|] eqn:Hbasic.
  { injection Hrun as _ _ <-. right; right; left. auto. }
  destruct (lite_Verify _ _ _ _ _ _ _ _) as [err|] eqn:Hverify;
    [|discriminate].
  injection Hrun as _ _ <-. right; right; right. auto.
Qed.

(** X7. What is stored for a header does not depend on how it came to be
    accepted: two successful calls with the same new header return the same
    client state and the same consensus state, whatever the client states,
    old headers, validator sets, chains, trusting periods and clocks were. *)
Theorem accepted_header_fixes_the_states
    ics iold inew vals chainID tp w cs1 k1
    ics' iold' vals' chainID' tp' w' cs2 k2 :
  run ics iold inew vals chainID tp w = (Concrete cs1, Concrete k1, None) ->
  run ics' iold' inew vals' chainID' tp' w' = (Concrete cs2, Concrete k2, None) ->
  cs1 = cs2 /\ k1 = k2.
Proof.
  intros Hrun1 Hrun2.
  apply run_success_inv in Hrun1, Hrun2.
  destruct Hrun1 as (c & o & new & _ & _ & -> & _ & Hupd1).
  destruct Hrun2 as (c' & o' & new' & _ & _ & Hnew & _ & Hupd2).
  injection Hnew as <-.
  unfold update in Hupd1, Hupd2.
  injection Hupd1 as -> ->. injection Hupd2 as -> ->.
  split; reflexivity.
Qed.

(** X8. Of the old header only the height and the signed header count: its
    validator set, its next validator set and its application hash are never
    read.  The validators trusted for the next block are the separate
    argument of the call, not those the old header carries. *)
Theorem old_header_counts_by_height_and_signed_header
    cs old old2 inew vals chainID tp w :
  Height old = Height old2 ->
  SignedHeader old = SignedHeader old2 ->
  run (Concrete cs) (Concrete old) inew vals chainID tp w
  = run (Concrete cs) (Concrete old2) inew vals chainID tp w.
Proof.
  intros Hheight Hsigned.
  unfold CheckValidityAndUpdateState; simpl.
  destruct (type_assert inew) as [new|]; [|reflexivity].
  unfold bind, checkValidity.
  rewrite Hheight, Hsigned. reflexivity.
Qed.

End Properties.

(** ** The claims on the concrete chain *)

Section OnTheChain.

Import Scenario.

Local Abbreviation errHeightOrder new old :=
  (Wrapf errInvalidHeader
    "new header height ≤ old header height (%d <= %d)" [new; old]).
Local Abbreviation errHeightLatest new latest :=
  (Wrapf errInvalidHeader
    "header height < latest client state height (%d < %d)" [new; latest]).
Local Abbreviation on_chain thm :=
  (thm testNow errInvalidClientType errInvalidHeader Height
     testValidateBasic testVerify testTrustLevel testNewRoot testHash).

(** Height 100 to 101, everyone signs, within the trusting period. *)
Lemma valid_header_is_accepted_witness :
  exists cs' k,
    run (Concrete (clientAt 100)) (Concrete h100) (Concrete h101)
      vals "testchain" 500 1020
    = (Concrete cs', Concrete k, None)
    /\ LatestHeight cs' = 101
    /\ Root k = list_byte_of_string "app"
    /\ ValidatorSetHash k = testHash vals.
Proof.
  apply (on_chain valid_header_is_accepted
           (clientAt 100) h100 h101 vals "testchain" 500 1020).
  - simpl; lia.
  - simpl; lia.
  - reflexivity.
  - reflexivity.
Defined.

(** Two updates in a row: 100 to 101, then 101 to 105. *)
Lemma latest_height_never_decreases_witness :
  on_chain accepted_seq (clientAt 100) (clientAt 105)
  /\ LatestHeight (clientAt 100) <= LatestHeight (clientAt 105).
Proof.
  assert (Hseq : on_chain accepted_seq (clientAt 100) (clientAt 105)).
  { apply rt1n_trans with (y := clientAt 101).
    - eapply accepted_intro
        with (oldHeader := Concrete h100) (newHeader := Concrete h101)
             (oldHeaderNextVals := vals) (chainID := "testchain")
             (trustingPeriod := 500) (w := 1020).
      reflexivity.
    - apply rt1n_trans with (y := clientAt 105); [|apply rt1n_refl].
      eapply accepted_intro
        with (oldHeader := Concrete h101) (newHeader := Concrete h105)
             (oldHeaderNextVals := vals) (chainID := "testchain")
             (trustingPeriod := 500) (w := 1060).
      reflexivity. }
  split; [exact Hseq|].
  exact (on_chain latest_height_never_decreases _ _ Hseq).
Defined.

(** Old height 100, new height 100. *)
Lemma non_increasing_height_is_rejected_witness :
  check (clientAt 100) h100 h100 vals "testchain" 500 1020
  = Some (errHeightOrder 100 100)
  /\ run (Concrete (clientAt 100)) (Concrete h100) (Concrete h100)
       vals "testchain" 500 1020
     = (Nil, Nil, Some (errHeightOrder 100 100)).
Proof.
  apply (on_chain non_increasing_height_is_rejected
           (clientAt 100) h100 h100 vals "testchain" 500 1020).
  simpl; lia.
Defined.

(** C4 as stated fails: client at 150, old header at 130, new header at
    120.  The new header is below the client's height, and the checker
    answers with the error for a height that does not increase, which is not
    the error for a height below the latest trusted one, whatever heights
    that one is formatted with. *)
Lemma below_latest_and_not_above_old :
  Height h120 < LatestHeight (clientAt 150)
  /\ check (clientAt 150) h130 h120 vals "testchain" 500 1020
     = Some (errHeightOrder 120 130)
  /\ forall args,
       check (clientAt 150) h130 h120 vals "testchain" 500 1020
       <> Some (Wrapf errInvalidHeader
                  "header height < latest client state height (%d < %d)" args).
Proof.
  split; [simpl; lia|]. split; [reflexivity|].
  intros args H. vm_compute in H. discriminate H.
Qed.

(** Client at 150, old header at 100, new header at 120; and a client at
    120 with the same headers. *)
Lemma height_below_latest_is_rejected_witness :
  check (clientAt 150) h100 h120 vals "testchain" 500 1020
  = Some (errHeightLatest 120 150)
  /\ check (clientAt 120) h100 h120 vals "testchain" 500 1020 = None.
Proof.
  split.
  - apply (height_below_latest_is_rejected testNow errInvalidHeader Height
             testValidateBasic testVerify testTrustLevel
             (clientAt 150) h100 h120 vals "testchain" 500 1020);
      simpl; lia.
  - etransitivity.
    + apply (height_below_latest_is_rejected testNow errInvalidHeader Height
               testValidateBasic testVerify testTrustLevel
               (clientAt 120) h100 h120 vals "testchain" 500 1020);
        [simpl; lia | reflexivity].
    + reflexivity.
Defined.

(** C6 as stated fails: the same arguments, passed at two readings of the
    clock, are accepted once and rejected once.  The time is not among the
    arguments. *)
Lemma same_arguments_different_outcome :
  run (Concrete (clientAt 100)) (Concrete h100) (Concrete h101)
    vals "testchain" 500 1020
  = (Concrete (clientAt 101),
     Concrete {| Root := list_byte_of_string "app";
                 ValidatorSetHash := testHash vals |},
     None)
  /\ run (Concrete (clientAt 100)) (Concrete h100) (Concrete h101)
       vals "testchain" 500 5000
     = (Nil, Nil, Some (Plain "old header has expired"))
  /\ run (Concrete (clientAt 100)) (Concrete h100) (Concrete h101)
       vals "testchain" 500 1020
     <> run (Concrete (clientAt 100)) (Concrete h100) (Concrete h101)
          vals "testchain" 500 5000.
Proof.
  split; [reflexivity|]. split; [reflexivity|].
  intros H. vm_compute in H. discriminate H.
Qed.

(** Two worlds that differ in everything but the reading of the clock. *)
Lemma same_clock_same_outcome_witness :
  CheckValidityAndUpdateState (World := Time * string) fst
    errInvalidClientType errInvalidHeader Height
    testValidateBasic testVerify testTrustLevel testNewRoot testHash
    (Concrete (clientAt 100)) (Concrete h100) (Concrete h101)
    vals "testchain" 500 (1020, "relayer one")
  = CheckValidityAndUpdateState (World := Time * string) fst
      errInvalidClientType errInvalidHeader Height
      testValidateBasic testVerify testTrustLevel testNewRoot testHash
      (Concrete (clientAt 100)) (Concrete h100) (Concrete h101)
      vals "testchain" 500 (1020, "relayer two").
Proof.
  apply (same_clock_same_outcome (World := Time * string) fst
           errInvalidClientType errInvalidHeader Height
           testValidateBasic testVerify testTrustLevel testNewRoot testHash).
  reflexivity.
Defined.

(** C7 as stated fails: the rejection of 100 after 100 and the rejection of
    120 by a client at 150 carry the same registered error. *)
Lemma height_rejections_share_registered_error :
  exists e1 e2,
    check (clientAt 100) h100 h100 vals "testchain" 500 1020 = Some e1
    /\ check (clientAt 150) h100 h120 vals "testchain" 500 1020 = Some e2
    /\ rootCause e1 = errInvalidHeader
    /\ rootCause e2 = errInvalidHeader
    /\ ~ rootCause e1 <> rootCause e2.
Proof.
  exists (errHeightOrder 100 100), (errHeightLatest 120 150).
  repeat split. intros H. apply H. reflexivity.
Qed.

(** The four rejections on the chain. *)
Lemma rejections_differ_by_description_witness :
  exists eA eB eC eD,
    run (OtherType "localhost.ClientState") (Concrete h100) (Concrete h100)
      vals "testchain" 500 1020 = (Nil, Nil, Some eA)
    /\ run (Concrete (clientAt 100)) (OtherType "localhost.Header")
         (Concrete h100) vals "testchain" 500 1020 = (Nil, Nil, Some eB)
    /\ run (Concrete (clientAt 100)) (Concrete h100) (Concrete h100)
         vals "testchain" 500 1020 = (Nil, Nil, Some eC)
    /\ run (Concrete (clientAt 150)) (Concrete h100) (Concrete h120)
         vals "testchain" 500 1020 = (Nil, Nil, Some eD)
    /\ (eA <> eB /\ eA <> eC /\ eA <> eD /\ eB <> eC /\ eB <> eD /\ eC <> eD)
    /\ rootCause eA = errInvalidClientType
    /\ rootCause eB = errInvalidHeader
    /\ rootCause eC = errInvalidHeader
    /\ rootCause eD = errInvalidHeader.
Proof.
  apply (on_chain rejections_differ_by_description
           (OtherType "localhost.ClientState") (OtherType "localhost.Header")
           (clientAt 100) h100 h100 (clientAt 150) h100 h120
           vals "testchain" 500 1020).
  - reflexivity.
  - reflexivity.
  - simpl; lia.
  - simpl; lia.
  - simpl; lia.
Defined.

(** C8 as stated fails: with a foreign client state and a foreign old
    header the call answers with the client-type error, not with the
    header-type error; the two wrap different registered errors. *)
Lemma foreign_client_and_foreign_header :
  type_assert (T := @Header TestSignedHeader TestValidatorSet)
    (OtherType "localhost.Header") = None
  /\ run (OtherType "localhost.ClientState") (OtherType "localhost.Header")
       (Concrete h120) vals "testchain" 500 1020
     = (Nil, Nil,
        Some (Wrap errInvalidClientType "light client is not from Tendermint"))
  /\ run (OtherType "localhost.ClientState") (OtherType "localhost.Header")
       (Concrete h120) vals "testchain" 500 1020
     <> (Nil, Nil,
         Some (Wrap errInvalidHeader "header is not from Tendermint"))
  /\ rootCause (Wrap errInvalidClientType "light client is not from Tendermint")
     <> rootCause (Wrap errInvalidHeader "header is not from Tendermint").
Proof.
  repeat split; intros H; vm_compute in H; discriminate H.
Qed.

(** A foreign client state; a Tendermint client state with a foreign new
    header. *)
Lemma foreign_types_are_rejected_first_witness :
  run (OtherType "localhost.ClientState") (Concrete h100) (Concrete h101)
    vals "testchain" 500 1020
  = (Nil, Nil,
     Some (Wrap errInvalidClientType "light client is not from Tendermint"))
  /\ run (Concrete (clientAt 100)) (Concrete h100) Nil
       vals "testchain" 500 1020
     = (Nil, Nil, Some (Wrap errInvalidHeader "header is not from Tendermint")).
Proof.
  split.
  - apply (on_chain foreign_types_are_rejected_first
             (OtherType "localhost.ClientState") (clientAt 100)
             (Concrete h100) (Concrete h101) vals "testchain" 500 1020).
    reflexivity.
  - apply (on_chain foreign_types_are_rejected_first
             (OtherType "localhost.ClientState") (clientAt 100)
             (Concrete h100) Nil vals "testchain" 500 1020).
    right. reflexivity.
Defined.

(** The verifier of the chain and a verifier that refuses every trust level
    but one third: a header signed by one validator of three is rejected
    alike. *)
Lemma verifier_runs_at_default_trust_level_witness :
  testVerify "testchain" (SignedHeader h100) vals (SignedHeader h101) vals
    500 1020 (2, 3)
  <> testVerifyOneThird "testchain" (SignedHeader h100) vals
       (SignedHeader h101) vals 500 1020 (2, 3)
  /\ run (Concrete (clientAt 100)) (Concrete h100)
       (Concrete (headerAt 101 1010 ["alice"])) vals "testchain" 500 1020
     = CheckValidityAndUpdateState testNow errInvalidClientType
         errInvalidHeader Height testValidateBasic testVerifyOneThird
         testTrustLevel testNewRoot testHash
         (Concrete (clientAt 100)) (Concrete h100)
         (Concrete (headerAt 101 1010 ["alice"])) vals "testchain" 500 1020.
Proof.
  split.
  - intros H. vm_compute in H. discriminate H.
  - apply (verifier_runs_at_default_trust_level testNow errInvalidClientType
             errInvalidHeader Height testValidateBasic
             testVerify testVerifyOneThird testTrustLevel testNewRoot testHash).
    intros. reflexivity.
Defined.

(** The accepted update from 100 to 101, taken apart. *)
Lemma accepted_header_passed_every_check_witness :
  exists cs old new,
    Concrete (clientAt 100) = Concrete cs
    /\ Concrete h100 = Concrete old /\ Concrete h101 = Concrete new
    /\ Height old < Height new
    /\ LatestHeight cs <= Height new
    /\ testValidateBasic new "testchain" = None
    /\ testVerify "testchain" (SignedHeader old) vals (SignedHeader new)
         (ValidatorSet new) 500 (testNow 1020) testTrustLevel = None
    /\ LatestHeight (clientAt 101) = Height new
    /\ Root {| Root := list_byte_of_string "app";
               ValidatorSetHash := testHash vals |}
       = testNewRoot (AppHash new)
    /\ ValidatorSetHash {| Root := list_byte_of_string "app";
                           ValidatorSetHash := testHash vals |}
       = testHash (ValidatorSet new).
Proof.
  apply (on_chain accepted_header_passed_every_check
           (Concrete (clientAt 100)) (Concrete h100) (Concrete h101)
           vals "testchain" 500 1020).
  reflexivity.
Defined.

(** A header of another chain, at two clocks, with the verifier of the
    chain and with one that accepts nothing. *)
Lemma early_rejection_needs_no_verifier_witness :
  check (clientAt 100) h100 h101 vals "otherchain" 500 1020
  = checkValidity testNow errInvalidHeader Height testValidateBasic
      testVerifyNever testTrustLevel
      (clientAt 100) h100 h101 vals "otherchain" 500 5000.
Proof.
  apply (early_rejection_needs_no_verifier testNow errInvalidHeader Height
           testValidateBasic testVerify testVerifyNever testTrustLevel
           (clientAt 100) h100 h101 vals "otherchain" 500 1020 5000).
  right; right. discriminate.
Defined.

(** A validation that would refuse the old header, and a verifier that
    serves the default trust level only. *)
Lemma dependencies_are_consulted_once_witness :
  testValidateBasic h100 "testchain" <> testValidateBasicFrom101 h100 "testchain"
  /\ run (Concrete (clientAt 100)) (Concrete h100) (Concrete h101)
       vals "testchain" 500 1020
     = CheckValidityAndUpdateState testNow errInvalidClientType
         errInvalidHeader Height testValidateBasicFrom101 testVerifyOneThird
         testTrustLevel testNewRoot testHash
         (Concrete (clientAt 100)) (Concrete h100) (Concrete h101)
         vals "testchain" 500 1020.
Proof.
  split; [discriminate|].
  apply (dependencies_are_consulted_once testNow errInvalidClientType
           errInvalidHeader Height testValidateBasic
           testVerify testVerifyOneThird testTrustLevel testNewRoot testHash
           testValidateBasicFrom101
           (clientAt 100) h100 h101 vals "testchain" 500 1020);
    reflexivity.
Defined.

(** The update from 100 to 105, for a client at 100, replayed for the
    client at 105 that came back, and for a client at 101. *)
Lemma accepted_for_lower_clients_alike_witness :
  run (Concrete (clientAt 105)) (Concrete h100) (Concrete h105)
    vals "testchain" 500 1060
  = (Concrete (clientAt 105),
     Concrete {| Root := list_byte_of_string "app";
                 ValidatorSetHash := testHash vals |},
     None)
  /\ run (Concrete (clientAt 101)) (Concrete h100) (Concrete h105)
       vals "testchain" 500 1060
     = (Concrete (clientAt 105),
        Concrete {| Root := list_byte_of_string "app";
                    ValidatorSetHash := testHash vals |},
        None).
Proof.
  split.
  - apply (on_chain accepted_for_lower_clients_alike
             (Concrete (clientAt 100)) (Concrete h100) (Concrete h105)
             vals "testchain" 500 1060);
      [reflexivity | simpl; lia].
  - apply (on_chain accepted_for_lower_clients_alike
             (Concrete (clientAt 100)) (Concrete h100) (Concrete h105)
             vals "testchain" 500 1060);
      [reflexivity | simpl; lia].
Defined.

(** After the update from 100 to 105, header 101 is refused, also with a
    good old header and in time. *)
Lemma header_below_accepted_one_is_rejected_witness :
  exists e,
    run (Concrete (clientAt 105)) (Concrete h100) (Concrete h101)
      vals "testchain" 500 1020
    = (Nil, Nil, Some e)
    /\ rootCause e = errInvalidHeader.
Proof.
  apply (on_chain header_below_accepted_one_is_rejected
           (Concrete (clientAt 100)) (Concrete h100) h105
           vals "testchain" 500 1060
           (clientAt 105)
           {| Root := list_byte_of_string "app";
              ValidatorSetHash := testHash vals |}
           h100 h101 vals "testchain" 500 1020).
  - reflexivity.
  - simpl; lia.
Defined.

(** A header signed by one validator of three: the error is the verifier's. *)
Lemma every_error_has_a_source_witness :
  testVerify "testchain" (SignedHeader h100) vals
    (SignedHeader (headerAt 101 1010 ["alice"])) vals 500 1020 testTrustLevel
  = Some (Plain "not enough voting power signed the header").
Proof.
  destruct (on_chain every_error_has_a_source
              (Concrete (clientAt 100)) (Concrete h100)
              (Concrete (headerAt 101 1010 ["alice"]))
              vals "testchain" 500 1020 Nil Nil
              (Plain "not enough voting power signed the header")
              eq_refl)
    as [[Hfalse _] | [(_ & [Hfalse | Hfalse] & _) | Hsource]];
    try discriminate Hfalse.
  destruct Hsource as (cs & old & new & Hcs & Hold & Hnew & Hsource).
  injection Hcs as <-. injection Hold as <-. injection Hnew as <-.
  destruct Hsource as [[_ H] | [(_ & _ & H) | [(_ & _ & H) | (_ & _ & _ & H)]]];
    try discriminate H.
  exact H.
Defined.

(** Header 100 with other validator sets and application hash around the
    same signed header serves as old header just as well. *)
Lemma old_header_counts_by_height_and_signed_header_witness :
  NextValidatorSet h100 <> NextValidatorSet h100_repacked
  /\ run (Concrete (clientAt 100)) (Concrete h100) (Concrete h101)
       vals "testchain" 500 1020
     = run (Concrete (clientAt 100)) (Concrete h100_repacked) (Concrete h101)
         vals "testchain" 500 1020.
Proof.
  split; [discriminate|].
  apply (on_chain old_header_counts_by_height_and_signed_header
           (clientAt 100) h100 h100_repacked (Concrete h101)
           vals "testchain" 500 1020);
    reflexivity.
Defined.

(** Header 105 accepted after 100 by a client at 100, and after 101 by a
    client at 101 at a later time. *)
Lemma accepted_header_fixes_the_states_witness :
  clientAt 105 = clientAt 105
  /\ {| Root := testNewRoot (AppHash h105);
        ValidatorSetHash := testHash vals |}
     = {| Root := list_byte_of_string "app";
          ValidatorSetHash := testHash (ValidatorSet h105) |}.
Proof.
  apply (on_chain accepted_header_fixes_the_states
           (Concrete (clientAt 100)) (Concrete h100) (Concrete h105)
           vals "testchain" 500 1060
           (clientAt 105)
           {| Root := testNewRoot (AppHash h105);
              ValidatorSetHash := testHash vals |}
           (Concrete (clientAt 101)) (Concrete h101)
           vals "testchain" 900 1400
           (clientAt 105)
           {| Root := list_byte_of_string "app";
              ValidatorSetHash := testHash (ValidatorSet h105) |});
    reflexivity.
Defined.

End OnTheChain.
